(** * main.py: a two-route HTTP service

    The program registers two GET handlers on a FastAPI application:
    [read_root] on "/" and [read_item] on "/items/{item_id}".  The
    handlers are embedded as state-passing computations over the
    interpreter's shared state, so that "succeeds", "has no side effect"
    and "does not depend on earlier requests" are statements about the
    definitions and not artefacts of the host logic.  Dictionaries are
    finite maps with string keys; Python integers are unbounded, hence
    [Z]. *)

From Stdlib Require Import ZArith String.
From Stdlib Require Import DecimalFacts DecimalString DecimalPos DecimalZ.
From stdpp Require Import gmap strings list fin_maps.

Local Open Scope Z_scope.
Local Open Scope string_scope.

(** ** Python values and calls *)

Module Py.

(** The values that occur in the program: [int], [str] and [None]. *)
Inductive value : Type :=
| VInt (n : Z)
| VStr (s : string)
| VNone.

(** A parameter annotated [str] with default [None] holds a string or
    [None]; [of_optional] is the value it denotes. *)
Definition of_optional (q : option string) : value :=
  match q with
  | Some s => VStr s
  | None => VNone
  end.

(** A dict display [{k1: v1, ..., kn: vn}] starts from the empty dict and
    stores the items from left to right. *)
Definition dict_display (items : list (string * value)) : gmap string value :=
  fold_left (fun d kv => <[kv.1 := kv.2]> d) items ∅.

(** An exception, by class name. *)
Inductive exn : Type :=
| Exn (cls : string).

(** How a call ends. *)
Inductive outcome (A : Type) : Type :=
| Returned (a : A)
| Raised (e : exn).

Arguments Returned {A} a.
Arguments Raised {A} e.

(** A function body runs against the shared state [G] (module globals and
    everything reachable from them) and may change it. *)
Definition comp (G A : Type) : Type := G -> outcome A * G.

Definition ret {G A : Type} (a : A) : comp G A := fun g => (Returned a, g).

Definition raise {G A : Type} (e : exn) : comp G A := fun g => (Raised e, g).

Definition bind {G A B : Type} (c : comp G A) (k : A -> comp G B) : comp G B :=
  fun g =>
    match c g with
    | (Returned a, g') => k a g'
    | (Raised e, g') => (Raised e, g')
    end.

End Py.

Import Py.

(** ** The framework layer: requests, responses, parameter resolution *)

Module Framework.

(** The route a GET request was matched to, with the raw text captured for
    the path parameter of "/items/{item_id}". *)
Inductive route_match : Type :=
| RootRoute
| ItemsRoute (item_id : string).

Record request : Type := {
  target : route_match;
  query : gmap string string;
  headers : list (string * string);
  body : string
}.

(** A response: the handler's return value as JSON content, the rejection
    produced by input validation, or the report of an exception that
    escaped the handler. *)
Inductive response : Type :=
| Ok200 (content : gmap string value)
| ValidationError422
| InternalError500 (e : exn).

Definition status_code (r : response) : Z :=
  match r with
  | Ok200 _ => 200
  | ValidationError422 => 422
  | InternalError500 _ => 500
  end.

(** Client and server errors. *)
Definition is_failure (r : response) : bool := (400 <=? status_code r)%Z.

Definition content_of (r : response) : option (gmap string value) :=
  match r with
  | Ok200 d => Some d
  | _ => None
  end.

(** What the decorators [@app.get("/")] and [@app.get("/items/{item_id}")]
    leave in the application object: the endpoint of each route, and for
    the second one the default of its query parameter [q]. *)
Record application (G : Type) : Type := {
  root_endpoint : comp G (gmap string value);
  items_endpoint : Z -> option string -> comp G (gmap string value);
  items_q_default : option string
}.

Arguments root_endpoint {G} _.
Arguments items_endpoint {G} _ _ _.
Arguments items_q_default {G} _.

Section Dispatch.

Context {G : Type}.

(** The validator the framework applies to a path parameter annotated
    [int]: it reads the captured text as an integer or rejects it.  The
    framework is a dependency of the program, so the validator is a
    parameter of the development. *)
Variable int_validator : string -> option Z.

(** Modelled from the spec: the framework's resolution of an optional
    query parameter annotated [str] (part of the same dependency).  It
    takes the value sent under its name, unchanged, and the declared
    default when none is sent. *)
Definition resolve_query (name : string) (dflt : option string)
    (qs : gmap string string) : option string :=
  match qs !! name with
  | Some s => Some s
  | None => dflt
  end.

(** Calling an endpoint and turning its outcome into a response. *)
Definition run_endpoint (h : comp G (gmap string value)) : G -> response * G :=
  fun g =>
    match h g with
    | (Returned d, g') => (Ok200 d, g')
    | (Raised e, g') => (InternalError500 e, g')
    end.

(** Modelled from the spec: the framework's handling of one matched GET
    request (FastAPI is a dependency, its code is not part of the
    repository).  The root route takes no input; on the items route the
    path segment is validated as an integer first, a segment that is not
    parseable is rejected with a client error before the handler runs, and
    otherwise the handler is called with the integer and the resolved
    [q]. *)
Definition handle (a : application G) (r : request) : G -> response * G :=
  match target r with
  | RootRoute => run_endpoint (root_endpoint a)
  | ItemsRoute raw =>
      match int_validator raw with
      | None => fun g => (ValidationError422, g)
      | Some n =>
          run_endpoint
            (items_endpoint a n (resolve_query "q" (items_q_default a) (query r)))
      end
  end.

(** The server handles the requests of a history one after the other, on
    the state the previous one left. *)
Fixpoint serve (a : application G) (rs : list request) (g : G)
    : list response * G :=
  match rs with
  | [] => ([], g)
  | r :: rs' =>
      let '(x, g1) := handle a r g in
      let '(xs, g2) := serve a rs' g1 in
      (x :: xs, g2)
  end.

End Dispatch.

(** A sample integer validator to run the general theorems on; it stands
    for no framework in particular.  It reads an optional minus sign and
    decimal digits, as the Standard Library does. *)
Definition decimal_int (s : string) : option Z :=
  option_map Z.of_int (NilZero.int_of_string s).

(** The decimal text of an integer, as it is written in a URL. *)
Definition decimal_text (n : Z) : string :=
  NilZero.string_of_int (Z.to_int n).

(** The most characters the text of an integer may have for the parser to
    look at it. *)
Definition int_max_str_digits : Z := 4300.

(** Modelled from the spec: the framework's parser for a path parameter
    annotated [int] ("path segment parsed as an integer identifier, fails
    with a client error if not parseable as an integer"), which is not in
    the repository, on decimal text.  A text of more than
    [int_max_str_digits] characters is refused whatever it holds; a
    shorter one is read as a signed decimal number.  The other spellings
    the framework also reads as integers (a plus sign, blanks around the
    text, digit separators, a zero fraction) are left out of the model,
    and no statement below depends on them. *)
Definition framework_int (s : string) : option Z :=
  if (int_max_str_digits <? Z.of_nat (String.length s))%Z then None
  else decimal_int s.

End Framework.

Import Framework.

(** ** main.py *)

Module Main.

Section Handlers.

Context {G : Type}.

(** [def read_root(): return {"message": "Hello World"}] *)
Definition read_root : comp G (gmap string value) :=
  ret (dict_display [("message", VStr "Hello World")]).

(** The default of [q] in [def read_item(item_id: int, q: str = None)]. *)
Definition read_item_q_default : option string := None.

(** [def read_item(item_id: int, q: str = None):
       return {"item_id": item_id, "q": q}] *)
Definition read_item (item_id : Z) (q : option string)
    : comp G (gmap string value) :=
  ret (dict_display [("item_id", VInt item_id); ("q", of_optional q)]).

(** [app = FastAPI()] after the two decorators have run. *)
Definition app : application G := {|
  root_endpoint := read_root;
  items_endpoint := read_item;
  items_q_default := read_item_q_default
|}.

End Handlers.

End Main.

Import Main.

(** Requests to run the service on. *)
Module Samples.

Definition items_request (raw : string) (qs : list (string * string))
    : request := {|
  target := ItemsRoute raw;
  query := list_to_map qs;
  headers := [];
  body := ""
|}.

Definition root_request (qs : list (string * string))
    (hs : list (string * string)) (b : string) : request := {|
  target := RootRoute;
  query := list_to_map qs;
  headers := hs;
  body := b
|}.

End Samples.

Import Samples.

(** ** Properties of the service *)

(** Reading back the decimal text of an integer gives that integer. *)
Lemma decimal_int_text (n : Z) : decimal_int (decimal_text n) = Some n.
Proof.
  unfold decimal_int, decimal_text.
  rewrite NilZero.isi.
  - simpl. by rewrite DecimalZ.of_to.
  - destruct n as [|p|p]; simpl; [discriminate| |discriminate].
    intros [= H]. by apply (DecimalPos.Unsigned.to_uint_nonnil p).
  - destruct n as [|p|p]; simpl; [discriminate|discriminate|].
    intros [= H]. by apply (DecimalPos.Unsigned.to_uint_nonnil p).
Qed.

Section Service.

Context {G : Type}.
Variable int_validator : string -> option Z.

Implicit Types (g : G) (r : request) (n : Z) (q : option string).

(** *** What the two handlers compute *)

Lemma dict_display_one (k : string) (v : value) :
  dict_display [(k, v)] = {[k := v]}.
Proof. unfold dict_display. simpl. apply insert_empty. Qed.

Lemma dict_display_two (k1 k2 : string) (v1 v2 : value) :
  k1 ≠ k2 →
  dict_display [(k1, v1); (k2, v2)] = {[k1 := v1; k2 := v2]}.
Proof.
  intros Hne. unfold dict_display. simpl.
  rewrite insert_insert_ne by done. by rewrite insert_empty.
Qed.

Lemma read_root_run g :
  read_root g = (Returned {["message" := VStr "Hello World"]}, g).
Proof. unfold read_root, ret. by rewrite dict_display_one. Qed.

Lemma read_item_run n q g :
  read_item n q g =
  (Returned {["item_id" := VInt n; "q" := of_optional q]}, g).
Proof. unfold read_item, ret. by rewrite dict_display_two. Qed.

(** *** What the service answers *)

Lemma handle_root r g :
  target r = RootRoute →
  handle int_validator app r g =
  (Ok200 {["message" := VStr "Hello World"]}, g).
Proof.
  intros Ht. unfold handle. rewrite Ht. unfold run_endpoint.
  cbn [app root_endpoint]. by rewrite read_root_run.
Qed.

Lemma handle_items_accepted r raw n g :
  target r = ItemsRoute raw →
  int_validator raw = Some n →
  handle int_validator app r g =
  (Ok200 {["item_id" := VInt n;
           "q" := of_optional (resolve_query "q" None (query r))]}, g).
Proof.
  intros Ht Hv. unfold handle. rewrite Ht, Hv. unfold run_endpoint.
  cbn [app items_endpoint items_q_default]. by rewrite read_item_run.
Qed.

Lemma handle_items_rejected (a : application G) r raw g :
  target r = ItemsRoute raw →
  int_validator raw = None →
  handle int_validator a r g = (ValidationError422, g).
Proof. intros Ht Hv. unfold handle. by rewrite Ht, Hv. Qed.

(** Handling a request of either route leaves the shared state as it
    was. *)
Lemma handle_state r g : (handle int_validator app r g).2 = g.
Proof.
  destruct (target r) as [|raw] eqn:Ht.
  - by rewrite handle_root.
  - destruct (int_validator raw) as [n|] eqn:Hv.
    + by rewrite (handle_items_accepted r raw n).
    + by rewrite (handle_items_rejected app r raw).
Qed.

Lemma serve_state (rs : list request) g :
  (serve int_validator app rs g).2 = g.
Proof.
  revert g. induction rs as [|r rs IH]; intros g; simpl; [done|].
  pose proof (handle_state r g) as Hh.
  destruct (handle int_validator app r g) as [x g1]. simpl in Hh. subst g1.
  specialize (IH g).
  destruct (serve int_validator app rs g) as [xs g2]. simpl in *. done.
Qed.

(** *** The claims *)

(** C1: for every integer [n] the path parser accepts, a GET request to
    /items/{n} is answered with a mapping whose [item_id] field is [n]
    itself: the parsed path parameter comes back unchanged. *)
Theorem item_id_round_trip r raw n g :
  target r = ItemsRoute raw →
  int_validator raw = Some n →
  ∃ d : gmap string value,
    (handle int_validator app r g).1 = Ok200 d ∧
    d !! "item_id" = Some (VInt n).
Proof.
  intros Ht Hv. rewrite (handle_items_accepted r raw n g Ht Hv).
  eexists. split; [reflexivity|]. apply lookup_insert_eq.
Qed.

(** C2: for every GET request to /, [read_root] returns (it raises
    nothing), leaves the shared state as it found it, and its result is
    exactly the mapping {"message": "Hello World"}; the service answers
    with that mapping and status 200. *)
Theorem read_root_hello_world r g :
  target r = RootRoute →
  read_root g = (Returned {["message" := VStr "Hello World"]}, g) ∧
  handle int_validator app r g =
    (Ok200 {["message" := VStr "Hello World"]}, g) ∧
  status_code (handle int_validator app r g).1 = 200.
Proof.
  intros Ht. split; [apply read_root_run|].
  rewrite (handle_root r g Ht). done.
Qed.

(** C3: a GET request to /items/{n} with a valid integer [n] and no [q]
    query parameter is answered with the mapping
    {"item_id": n, "q": null}. *)
Theorem read_item_q_absent r raw n g :
  target r = ItemsRoute raw →
  int_validator raw = Some n →
  query r !! "q" = None →
  handle int_validator app r g =
    (Ok200 {["item_id" := VInt n; "q" := VNone]}, g).
Proof.
  intros Ht Hv Hq. rewrite (handle_items_accepted r raw n g Ht Hv).
  unfold resolve_query. by rewrite Hq.
Qed.

(** C4: a GET request to /items/{n} with a valid integer [n] and a [q]
    query parameter of value [s] is answered with the mapping
    {"item_id": n, "q": s}: the string comes back as it was sent. *)
Theorem read_item_q_present r raw n (s : string) g :
  target r = ItemsRoute raw →
  int_validator raw = Some n →
  query r !! "q" = Some s →
  handle int_validator app r g =
    (Ok200 {["item_id" := VInt n; "q" := VStr s]}, g).
Proof.
  intros Ht Hv Hq. rewrite (handle_items_accepted r raw n g Ht Hv).
  unfold resolve_query. by rewrite Hq.
Qed.

(** C5: a GET request to /items/{item_id} fails exactly when the path
    segment is not parseable as an integer.  In that case the answer is
    the validation layer's 422, whatever endpoint is registered on the
    route and with the shared state untouched, so the handler has not
    run; a parseable segment gives status 200, and a request to / never
    fails. *)
Theorem failure_iff_item_id_malformed r raw g (a : application G) :
  target r = ItemsRoute raw →
  (is_failure (handle int_validator app r g).1 = true ↔
     int_validator raw = None) ∧
  (int_validator raw = None →
     handle int_validator a r g = (ValidationError422, g)) ∧
  (∀ n, int_validator raw = Some n →
     status_code (handle int_validator app r g).1 = 200) ∧
  (∀ r0 g0, target r0 = RootRoute →
     is_failure (handle int_validator app r0 g0).1 = false).
Proof.
  intros Ht. repeat split.
  - destruct (int_validator raw) as [n|] eqn:Hv; [|done].
    rewrite (handle_items_accepted r raw n g Ht Hv). discriminate.
  - intros Hv. by rewrite (handle_items_rejected app r raw g Ht Hv).
  - intros Hv. by apply (handle_items_rejected a r raw g).
  - intros n Hv. by rewrite (handle_items_accepted r raw n g Ht Hv).
  - intros r0 g0 Ht0. by rewrite (handle_root r0 g0 Ht0).
Qed.

(** C6: whenever a request is answered with a handler's mapping, that
    mapping has exactly the keys [item_id] and [q] on the items route and
    exactly the key [message] on the root route; and every call of either
    handler returns a mapping with exactly those keys. *)
Theorem response_keys_exact r g (d : gmap string value) :
  content_of (handle int_validator app r g).1 = Some d →
  dom d =
    match target r with
    | RootRoute => ({["message"]} : gset string)
    | ItemsRoute _ => {["item_id"; "q"]}
    end ∧
  (∀ n q g', ∃ d' : gmap string value,
     read_item n q g' = (Returned d', g') ∧
     dom d' = ({["item_id"; "q"]} : gset string)) ∧
  (∀ g', ∃ d' : gmap string value,
     read_root g' = (Returned d', g') ∧
     dom d' = ({["message"]} : gset string)).
Proof.
  intros Hd. split; [|split].
  - destruct (target r) as [|raw] eqn:Ht.
    + rewrite (handle_root r g Ht) in Hd. simpl in Hd.
      injection Hd as <-. by rewrite dom_singleton_L.
    + destruct (int_validator raw) as [n|] eqn:Hv.
      * rewrite (handle_items_accepted r raw n g Ht Hv) in Hd. simpl in Hd.
        injection Hd as <-. by rewrite dom_insert_L, dom_singleton_L.
      * by rewrite (handle_items_rejected app r raw g Ht Hv) in Hd.
  - intros n q g'. eexists. split; [apply read_item_run|].
    by rewrite dom_insert_L, dom_singleton_L.
  - intros g'. eexists. split; [apply read_root_run|].
    by rewrite dom_singleton_L.
Qed.

(** C7: both handlers are pure and stateless.  Take any two runs of the
    server, from any initial states and over any histories of requests:
    called in the states so reached, [read_item] with the same
    [(item_id, q)] gives the same outcome and [read_root] gives the same
    outcome; neither call changes the state, and the histories themselves
    have left the initial state as it was. *)
Theorem handlers_pure_stateless (h1 h2 : list request) g1 g2 n q :
  let s1 := (serve int_validator app h1 g1).2 in
  let s2 := (serve int_validator app h2 g2).2 in
  (read_item n q s1).1 = (read_item n q s2).1 ∧
  (read_root s1).1 = (read_root s2).1 ∧
  (read_item n q s1).2 = s1 ∧
  (read_root s1).2 = s1 ∧
  s1 = g1.
Proof.
  intros s1 s2. rewrite !read_item_run, !read_root_run. simpl.
  repeat split; try done. apply serve_state.
Qed.

(** C9: a [q] that is present with the empty string as its value is not
    treated as absent: the [q] field of the response is the empty string
    and not null, so the response differs from the one given to the same
    path without [q]. *)
Theorem empty_q_is_not_absent r r' raw n g :
  target r = ItemsRoute raw →
  int_validator raw = Some n →
  query r !! "q" = Some "" →
  target r' = ItemsRoute raw →
  query r' !! "q" = None →
  (∃ d : gmap string value,
     handle int_validator app r g = (Ok200 d, g) ∧
     d !! "q" = Some (VStr "") ∧
     d !! "q" ≠ Some VNone) ∧
  (handle int_validator app r g).1 ≠ (handle int_validator app r' g).1.
Proof.
  intros Ht Hv Hq Ht' Hq'.
  rewrite (handle_items_accepted r raw n g Ht Hv).
  rewrite (handle_items_accepted r' raw n g Ht' Hv).
  unfold resolve_query. rewrite Hq, Hq'. simpl.
  split.
  - eexists. split; [reflexivity|].
    rewrite lookup_insert_ne, lookup_singleton_eq by done. by split.
  - intros Heq.
    apply (f_equal (λ x, content_of x ≫= (.!! "q"))) in Heq. simpl in Heq.
    rewrite !lookup_insert_ne, !lookup_singleton_eq in Heq by done.
    discriminate.
Qed.

(** C10: [read_root] is a constant function of the request.  Any two
    requests to /, whatever their headers, query strings and bodies and
    whatever the state they are handled in, get the same response, hence
    the same bytes under any encoding of the response content. *)
Theorem read_root_constant r1 r2 g1 g2 :
  target r1 = RootRoute →
  target r2 = RootRoute →
  (handle int_validator app r1 g1).1 = (handle int_validator app r2 g2).1 ∧
  ∀ encode : gmap string value → list Byte.byte,
    encode <$> content_of (handle int_validator app r1 g1).1 =
    encode <$> content_of (handle int_validator app r2 g2).1.
Proof.
  intros Ht1 Ht2.
  by rewrite (handle_root r1 g1 Ht1), (handle_root r2 g2 Ht2).
Qed.

End Service.

(** *** The identifier and the parser's limit *)

(** The decimal text of 10^k is a one followed by [k] zeros, so it has
    [k + 1] characters. *)
Lemma string_of_uint_length (d : Decimal.uint) :
  String.length (NilEmpty.string_of_uint d) = Decimal.nb_digits d.
Proof. induction d; simpl; by f_equal. Qed.

Lemma to_little_uint_pow10 (k : nat) :
  Pos.to_little_uint (Nat.iter k (Pos.mul 10) 1%positive) =
  Nat.iter k Decimal.D0 (Decimal.D1 Decimal.Nil).
Proof.
  induction k as [|k IH]; [reflexivity|].
  rewrite !Nat.iter_succ, <- IH.
  apply (DecimalPos.Unsigned.to_ldec_tenfold
           (Nat.iter k (Pos.mul 10) 1%positive)).
Qed.

Lemma pow10_iter (k : nat) :
  10 ^ Z.of_nat k = Z.pos (Nat.iter k (Pos.mul 10) 1%positive).
Proof.
  induction k as [|k IH]; [reflexivity|].
  rewrite Nat2Z.inj_succ, Z.pow_succ_r by lia. rewrite IH.
  rewrite Nat.iter_succ. reflexivity.
Qed.

Lemma decimal_text_pow10_length (k : nat) :
  String.length (decimal_text (10 ^ Z.of_nat k)) = S k.
Proof.
  rewrite pow10_iter. unfold decimal_text.
  cbn [Z.to_int NilZero.string_of_int]. unfold NilZero.string_of_uint.
  destruct (Pos.to_uint (Nat.iter k (Pos.mul 10) 1%positive)) eqn:Hd.
  1: by apply DecimalPos.Unsigned.to_uint_nonnil in Hd.
  all: rewrite <- Hd, string_of_uint_length; unfold Pos.to_uint;
    rewrite DecimalFacts.nb_digits_rev, to_little_uint_pow10,
      DecimalFacts.nb_digits_iter_D0; simpl; lia.
Qed.

Lemma framework_int_short (n : Z) :
  (Z.of_nat (String.length (decimal_text n)) ≤ int_max_str_digits)%Z →
  framework_int (decimal_text n) = Some n.
Proof.
  intros Hlen. unfold framework_int.
  destruct (Z.ltb_spec int_max_str_digits
              (Z.of_nat (String.length (decimal_text n)))) as [Hlt|_].
  - lia.
  - apply decimal_int_text.
Qed.

Lemma framework_int_long (s : string) :
  (int_max_str_digits < Z.of_nat (String.length s))%Z →
  framework_int s = None.
Proof.
  intros Hlen. unfold framework_int.
  destruct (Z.ltb_spec int_max_str_digits (Z.of_nat (String.length s)));
    [done|lia].
Qed.

(** The limit is reached and not passed by 10^4299, whose text has 4300
    characters: the parser still reads it. *)
Lemma framework_int_at_limit :
  framework_int (decimal_text (10 ^ 4299)) = Some (10 ^ 4299).
Proof.
  assert (Hlen : String.length (decimal_text (10 ^ 4299)) = 4300%nat)
    by exact (decimal_text_pow10_length 4299).
  apply framework_int_short. rewrite Hlen. unfold int_max_str_digits. lia.
Qed.

(** C8, as amended: [read_item] itself puts no range restriction on the
    identifier.  The handler returns a mapping with [item_id] equal to [m]
    for every integer [m], and for every integer [n], zero and negative
    ones included, whose decimal text has at most 4300 characters, a GET
    request to /items/{n} succeeds and echoes [item_id] equal to [n]. *)
Theorem item_id_unrestricted_up_to_parser_limit {G : Type}
    (n : Z) (r : request) (g : G) :
  target r = ItemsRoute (decimal_text n) →
  (Z.of_nat (String.length (decimal_text n)) ≤ int_max_str_digits)%Z →
  (∃ d : gmap string value,
     handle framework_int app r g = (Ok200 d, g) ∧
     d !! "item_id" = Some (VInt n)) ∧
  (∀ (m : Z) (q : option string) (g' : G), ∃ d' : gmap string value,
     read_item m q g' = (Returned d', g') ∧
     d' !! "item_id" = Some (VInt m)).
Proof.
  intros Ht Hlen. split.
  - rewrite (handle_items_accepted framework_int r _ n g Ht
               (framework_int_short n Hlen)).
    eexists. split; [reflexivity|]. apply lookup_insert_eq.
  - intros m q g'. eexists. split; [apply read_item_run|].
    apply lookup_insert_eq.
Qed.

(** C8, as stated, fails: the decimal text of 10^4300 has 4301 characters,
    the parser refuses it, and the request to /items/{10^4300} is answered
    with the client error instead of a mapping. *)
Lemma item_id_unrestricted_counterexample :
  String.length (decimal_text (10 ^ 4300)) = 4301%nat ∧
  handle framework_int app (items_request (decimal_text (10 ^ 4300)) []) tt =
    (ValidationError422, tt) ∧
  ¬ ∃ d : gmap string value,
      handle framework_int app
        (items_request (decimal_text (10 ^ 4300)) []) tt = (Ok200 d, tt) ∧
      d !! "item_id" = Some (VInt (10 ^ 4300)).
Proof.
  assert (Hlen : String.length (decimal_text (10 ^ 4300)) = 4301%nat)
    by exact (decimal_text_pow10_length 4300).
  assert (Hrej : handle framework_int app
                   (items_request (decimal_text (10 ^ 4300)) []) tt =
                 (ValidationError422, tt)).
  { apply (handle_items_rejected framework_int app
             (items_request (decimal_text (10 ^ 4300)) [])
             (decimal_text (10 ^ 4300)) tt eq_refl).
    apply framework_int_long. rewrite Hlen. unfold int_max_str_digits. lia. }
  split; [exact Hlen|]. split; [exact Hrej|].
  intros (d & Hd & _). rewrite Hrej in Hd. discriminate.
Qed.

(** ** The claims at concrete requests *)

Lemma item_id_round_trip_witness :
  ∃ d : gmap string value,
    (handle decimal_int app (items_request "42" []) tt).1 = Ok200 d ∧
    d !! "item_id" = Some (VInt 42).
Proof.
  apply (item_id_round_trip decimal_int (items_request "42" []) "42" 42 tt);
    reflexivity.
Defined.

Lemma read_root_hello_world_witness :
  read_root tt = (Returned {["message" := VStr "Hello World"]}, tt) ∧
  handle decimal_int app (root_request [] [] "") tt =
    (Ok200 {["message" := VStr "Hello World"]}, tt) ∧
  status_code (handle decimal_int app (root_request [] [] "") tt).1 = 200.
Proof.
  apply (read_root_hello_world decimal_int (root_request [] [] "") tt).
  reflexivity.
Defined.

Lemma read_item_q_absent_witness :
  handle decimal_int app (items_request "42" []) tt =
    (Ok200 {["item_id" := VInt 42; "q" := VNone]}, tt).
Proof.
  apply (read_item_q_absent decimal_int (items_request "42" []) "42" 42 tt);
    reflexivity.
Defined.

Lemma read_item_q_present_witness :
  handle decimal_int app (items_request "42" [("q", "foo")]) tt =
    (Ok200 {["item_id" := VInt 42; "q" := VStr "foo"]}, tt).
Proof.
  apply (read_item_q_present decimal_int
           (items_request "42" [("q", "foo")]) "42" 42 "foo" tt);
    reflexivity.
Defined.

Lemma failure_iff_item_id_malformed_witness :
  is_failure (handle decimal_int app (items_request "abc" []) tt).1 = true ∧
  handle decimal_int (G := unit)
    {| root_endpoint := raise (Exn "RuntimeError");
       items_endpoint := λ _ _, raise (Exn "RuntimeError");
       items_q_default := None |}
    (items_request "abc" []) tt = (ValidationError422, tt).
Proof.
  destruct (failure_iff_item_id_malformed decimal_int
              (items_request "abc" []) "abc" tt
              {| root_endpoint := raise (Exn "RuntimeError");
                 items_endpoint := λ _ _, raise (Exn "RuntimeError");
                 items_q_default := None |} eq_refl)
    as (Hiff & Hrej & _ & _).
  split; [apply Hiff; reflexivity | apply Hrej; reflexivity].
Defined.

Lemma response_keys_exact_witness :
  dom ({["item_id" := VInt 42; "q" := VStr "foo"]} : gmap string value) =
    ({["item_id"; "q"]} : gset string).
Proof.
  apply (response_keys_exact decimal_int
           (items_request "42" [("q", "foo")]) tt
           {["item_id" := VInt 42; "q" := VStr "foo"]}).
  reflexivity.
Defined.

Lemma item_id_unrestricted_up_to_parser_limit_witness :
  (∃ d : gmap string value,
     handle framework_int app (items_request "-7" []) tt = (Ok200 d, tt) ∧
     d !! "item_id" = Some (VInt (-7))) ∧
  (∃ d : gmap string value,
     handle framework_int app (items_request "0" []) tt = (Ok200 d, tt) ∧
     d !! "item_id" = Some (VInt 0)).
Proof.
  split.
  - apply (item_id_unrestricted_up_to_parser_limit (-7)
             (items_request "-7" []) tt);
      [reflexivity | vm_compute; discriminate].
  - apply (item_id_unrestricted_up_to_parser_limit 0
             (items_request "0" []) tt);
      [reflexivity | vm_compute; discriminate].
Defined.

Lemma empty_q_is_not_absent_witness :
  (handle decimal_int app (items_request "42" [("q", "")]) tt).1 ≠
  (handle decimal_int app (items_request "42" []) tt).1.
Proof.
  apply (empty_q_is_not_absent decimal_int
           (items_request "42" [("q", "")]) (items_request "42" [])
           "42" 42 tt);
    reflexivity.
Defined.

Lemma read_root_constant_witness :
  (handle decimal_int app (root_request [] [] "") tt).1 =
  (handle decimal_int app
     (root_request [("q", "foo")] [("accept", "text/html")] "payload") tt).1.
Proof.
  apply (read_root_constant decimal_int
           (root_request [] [] "")
           (root_request [("q", "foo")] [("accept", "text/html")] "payload")
           tt tt);
    reflexivity.
Defined.

(** ** Further properties of the handlers *)

Section HandlerFacts.

Context {G : Type}.

Implicit Types (g : G) (n : Z) (q : option string).

(** X1: the result of [read_item] determines its arguments.  Two calls
    that return the same mapping, in whatever states, were given the same
    identifier and the same [q] (the same string, or both none): the echo
    loses nothing of its input. *)
Theorem read_item_injective n n' q q' g g' :
  (read_item n q g).1 = (read_item n' q' g').1 →
  n = n' ∧ q = q'.
Proof.
  rewrite !read_item_run. simpl. intros Heq. split.
  - apply (f_equal (λ o : outcome (gmap string value),
                      match o with
                      | Returned d => d !! "item_id"
                      | Raised _ => None
                      end)) in Heq.
    rewrite !lookup_insert_eq in Heq. congruence.
  - apply (f_equal (λ o : outcome (gmap string value),
                      match o with
                      | Returned d => d !! "q"
                      | Raised _ => None
                      end)) in Heq.
    rewrite !lookup_insert_ne, !lookup_singleton_eq in Heq by done.
    destruct q, q'; simpl in Heq; congruence.
Qed.

(** X2: the two handlers never return the same mapping.  For every
    identifier, every [q] and all states, the mappings returned by
    [read_item] and by [read_root] have no key in common, so the outcome
    of one is never the outcome of the other. *)
Theorem read_item_read_root_apart n q g g' :
  ∃ d1 d2 : gmap string value,
    read_item n q g = (Returned d1, g) ∧
    read_root g' = (Returned d2, g') ∧
    dom d1 ∩ dom d2 = (∅ : gset string) ∧
    (read_item n q g).1 ≠ (read_root g').1.
Proof.
  do 2 eexists. split; [apply read_item_run|]. split; [apply read_root_run|].
  split.
  - rewrite dom_insert_L, !dom_singleton_L.
    apply set_eq. intros k. rewrite !elem_of_intersection, !elem_of_union,
      !elem_of_singleton, elem_of_empty.
    split; [|done]. intros [[->| ->] Hk]; discriminate.
  - rewrite read_item_run, read_root_run. simpl. intros Heq.
    apply (f_equal (λ o : outcome (gmap string value),
                      match o with
                      | Returned d => d !! "message"
                      | Raised _ => None
                      end)) in Heq.
    rewrite !lookup_insert_ne, lookup_singleton_ne, lookup_singleton_eq
      in Heq by done.
    discriminate.
Qed.

End HandlerFacts.

Lemma read_item_injective_witness :
  (42 : Z) = 42 ∧ Some "foo" = Some "foo".
Proof.
  apply (read_item_injective 42 42 (Some "foo") (Some "foo") 0%nat 5%nat).
  reflexivity.
Defined.
